(** * Clustering_flask_API: the clustering service and its guide endpoint

    A shallow embedding of [CLUSTERING_API.py]: the five clusterer classes,
    [perform_clustering], [get_clustering_guide] and the two Flask views
    [cluster_data] and [clustering_guide], followed by the properties of the
    service that its specification states.

    A Python string is modelled by its UTF-8 bytes.  [int] and [float]
    read a literal as CPython 3.11 does: blanks and decimal digits of any
    script, underscores between digits, and for [int] at most 4300 digits;
    [lower] acts on ASCII letters.  A spreadsheet is identified with the
    table pandas reads from it (or the exception pandas raises on it).  The
    routines of scikit-learn and SciPy are calls to the outside: a program
    that reaches one is a [Call] node whose continuation receives the
    routine's answer. *)

From Stdlib Require Import ZArith String Ascii List Bool Lia DecimalString.
From stdpp Require Import gmap strings list fin_maps.
Import ListNotations.

Local Open Scope string_scope.
Local Open Scope Z_scope.

(** ** Text *)

Module Text.

Definition is_upper (c : ascii) : bool :=
  let n := nat_of_ascii c in (Nat.leb 65 n && Nat.leb n 90)%bool.

(** [str.lower] on one character. *)
Definition lower_char (c : ascii) : ascii :=
  if is_upper c then ascii_of_nat (nat_of_ascii c + 32) else c.

(** [str.lower]. *)
Fixpoint lower (s : string) : string :=
  match s with
  | EmptyString => EmptyString
  | String c rest => String (lower_char c) (lower rest)
  end.

(** [sub in s]. *)
Fixpoint contains (sub s : string) : bool :=
  (String.prefix sub s
   || match s with
      | EmptyString => false
      | String _ rest => contains sub rest
      end)%bool.

(** The characters [int] and [float] skip around a literal: the blank and
    the characters 9 to 13. *)
Definition is_space (c : ascii) : bool :=
  let n := nat_of_ascii c in
  (Nat.eqb n 32 || (Nat.leb 9 n && Nat.leb n 13))%bool.

Fixpoint lstrip (l : list ascii) : list ascii :=
  match l with
  | c :: rest => if is_space c then lstrip rest else l
  | [] => []
  end.

Definition strip (l : list ascii) : list ascii :=
  rev (lstrip (rev (lstrip l))).

Definition digit_of (c : ascii) : option Z :=
  let n := nat_of_ascii c in
  if (Nat.leb 48 n && Nat.leb n 57)%bool then Some (Z.of_nat n - 48) else None.

(** The rest of a [digitpart ::= digit (["_"] digit)*] after its first
    digit: the value read so far, the number of digits read, what is left. *)
Fixpoint digitpart_rest (acc : Z) (nd : nat) (l : list ascii)
  : Z * nat * list ascii :=
  match l with
  | [] => (acc, nd, [])
  | c :: rest =>
      match digit_of c with
      | Some d => digitpart_rest (10 * acc + d) (S nd) rest
      | None =>
          if Ascii.eqb c "_" then
            match rest with
            | c2 :: rest2 =>
                match digit_of c2 with
                | Some d => digitpart_rest (10 * acc + d) (S nd) rest2
                | None => (acc, nd, l)
                end
            | [] => (acc, nd, l)
            end
          else (acc, nd, l)
      end
  end.

Definition digitpart (l : list ascii) : option (Z * nat * list ascii) :=
  match l with
  | c :: rest =>
      match digit_of c with
      | Some d => Some (digitpart_rest d 1 rest)
      | None => None
      end
  | [] => None
  end.

(** An optional sign: [true] for a minus. *)
Definition sign (l : list ascii) : bool * list ascii :=
  match l with
  | c :: rest =>
      if Ascii.eqb c "-" then (true, rest)
      else if Ascii.eqb c "+" then (false, rest)
      else (false, l)
  | [] => (false, [])
  end.

Definition signed (neg : bool) (z : Z) : Z := if neg then - z else z.

(** *** Text outside ASCII

    A string stands for its UTF-8 bytes.  Before [int] and [float] read a
    literal, every blank outside ASCII becomes a blank and every decimal
    digit of another script the ASCII digit of its value; at the first
    other character outside ASCII the text is cut and ends in a question
    mark, which no literal contains. *)

Definition replacement : N := 65533%N.

Definition is_continuation (c : ascii) : bool :=
  let n := N_of_ascii c in (N.leb 128 n && N.ltb n 192)%bool.

Definition low6 (c : ascii) : N := (N_of_ascii c - 128)%N.

(** The code points of a UTF-8 text; a byte that starts no well-formed
    sequence gives the replacement character. *)
Fixpoint decode (l : list ascii) : list N :=
  match l with
  | [] => []
  | b0 :: r0 =>
      let n0 := N_of_ascii b0 in
      if N.ltb n0 128 then n0 :: decode r0
      else if (N.leb 194 n0 && N.ltb n0 224)%bool then
        match r0 with
        | b1 :: r1 =>
            if is_continuation b1
            then ((n0 - 192) * 64 + low6 b1)%N :: decode r1
            else replacement :: decode r0
        | [] => [replacement]
        end
      else if (N.leb 224 n0 && N.ltb n0 240)%bool then
        match r0 with
        | b1 :: r1 =>
            match r1 with
            | b2 :: r2 =>
                let cp := ((n0 - 224) * 4096 + low6 b1 * 64 + low6 b2)%N in
                if (is_continuation b1 && is_continuation b2 && N.leb 2048 cp
                    && negb (N.leb 55296 cp && N.leb cp 57343))%bool
                then cp :: decode r2
                else replacement :: decode r0
            | [] => replacement :: decode r0
            end
        | [] => [replacement]
        end
      else if (N.leb 240 n0 && N.ltb n0 245)%bool then
        match r0 with
        | b1 :: r1 =>
            match r1 with
            | b2 :: r2 =>
                match r2 with
                | b3 :: r3 =>
                    let cp := ((n0 - 240) * 262144 + low6 b1 * 4096
                               + low6 b2 * 64 + low6 b3)%N in
                    if (is_continuation b1 && is_continuation b2
                        && is_continuation b3 && N.leb 65536 cp
                        && N.leb cp 1114111)%bool
                    then cp :: decode r3
                    else replacement :: decode r0
                | [] => replacement :: decode r0
                end
            | [] => replacement :: decode r0
            end
        | [] => [replacement]
        end
      else replacement :: decode r0
  end.

(** The blanks outside ASCII. *)
Definition is_unicode_space (cp : N) : bool :=
  (N.eqb cp 133 || N.eqb cp 160 || N.eqb cp 5760
   || (N.leb 8192 cp && N.leb cp 8202)
   || N.eqb cp 8232 || N.eqb cp 8233 || N.eqb cp 8239 || N.eqb cp 8287
   || N.eqb cp 12288)%bool.

(** The zeros of the decimal digits outside ASCII (Unicode 14, as in
    CPython 3.11); the nine code points after each are its digits 1 to 9. *)
Definition digit_zeros : list N :=
  [1632; 1776; 1984; 2406; 2534; 2662; 2790; 2918;
   3046; 3174; 3302; 3430; 3558; 3664; 3792; 3872;
   4160; 4240; 6112; 6160; 6470; 6608; 6784; 6800;
   6992; 7088; 7232; 7248; 42528; 43216; 43264; 43472;
   43504; 43600; 44016; 65296; 66720; 68912; 69734; 69872;
   69942; 70096; 70384; 70736; 70864; 71248; 71360; 71472;
   71904; 72016; 72784; 73040; 73120; 92768; 92864; 93008;
   120782; 120792; 120802; 120812; 120822; 123200; 123632; 125264;
   130032]%N.

Fixpoint decimal_in (zeros : list N) (cp : N) : option N :=
  match zeros with
  | [] => None
  | z :: rest =>
      if (N.leb z cp && N.leb cp (z + 9)%N)%bool then Some (cp - z)%N
      else decimal_in rest cp
  end.

Fixpoint to_ascii (cps : list N) : list ascii :=
  match cps with
  | [] => []
  | cp :: rest =>
      if N.ltb cp 127 then ascii_of_N cp :: to_ascii rest
      else if is_unicode_space cp then " "%char :: to_ascii rest
      else
        match decimal_in digit_zeros cp with
        | Some d => ascii_of_N (48 + d)%N :: to_ascii rest
        | None => ["?"%char]
        end
  end.

(** The text of a string as [int] and [float] read it. *)
Definition literal (s : string) : list ascii :=
  to_ascii (decode (list_ascii_of_string s)).

(** [repr] of a string of plain characters without quotes or escapes. *)
Definition repr (s : string) : string := "'" ++ s ++ "'".

(** The number of digits [int] converts at most. *)
Definition max_str_digits : nat := 4300.

End Text.

(** ** Values *)

(** A float, written as a decimal [mantissa * 10 ^ exponent].  The value
    of a literal is kept as written: its rounding to binary64, the infinity
    Python makes of a literal beyond that range and the sign of a zero are
    not modelled; whether [float] accepts a literal does not depend on them. *)
Inductive pyfloat : Type :=
| Finite (mantissa exponent : Z)
| Infinity (negative : bool)
| NaN.

(** A cell of a table. *)
Inductive cell : Type :=
| CText (s : string)
| CInt (z : Z)
| CFloat (x : pyfloat)
| CEmpty.

(** A two-dimensional array, by rows. *)
Definition ndarray : Type := list (list cell).

(** The objects the clusterers store in their attributes, and the
    estimators of scikit-learn with their constructor arguments. *)
Inductive value : Type :=
| VNone
| VInt (z : Z)
| VFloat (x : pyfloat)
| VStr (s : string)
| VArray (a : ndarray)
| VEstimator (e : estimator)
with estimator : Type :=
| KMeans (n_clusters : value)
| DBSCAN (eps min_samples : value)
| MeanShift
| AgglomerativeClustering (n_clusters : value).

(** ** Exceptions *)

Inductive exc_class : Type :=
| ValueError
| TypeError
| KeyError
| AttributeError
| FileNotFoundError
| Subclass (name : string) (base : exc_class)
| OtherError (name : string).

(** An exception: its class and what [str] gives on it. *)
Record exn : Type := Exception { exc_type : exc_class; exc_str : string }.

(** [isinstance(e, ValueError)], as [except ValueError] tests it. *)
Fixpoint is_ValueError (c : exc_class) : bool :=
  match c with
  | ValueError => true
  | Subclass _ base => is_ValueError base
  | _ => false
  end.

(** ** Programs that may raise or call the numerical libraries *)

Inductive libcall : Type -> Type :=
| fit_predict (model : estimator) (X : value) : libcall (list Z)
| linkage (X method : value) : libcall ndarray
| fcluster (Zm t criterion : value) : libcall (list Z).

Inductive prog (A : Type) : Type :=
| Ret (a : A)
| Raise (e : exn)
| Call {R : Type} (c : libcall R) (k : exn + R -> prog A).

Arguments Ret {A} a.
Arguments Raise {A} e.
Arguments Call {A R} c k.

Fixpoint bind {A B : Type} (p : prog A) (f : A -> prog B) : prog B :=
  match p with
  | Ret a => f a
  | Raise e => Raise e
  | Call c k => Call c (fun r => bind (k r) f)
  end.

Declare Scope prog_scope.
Delimit Scope prog_scope with prog.
Notation "x <- p ;; q" := (bind p (fun x => q))
  (at level 100, p at next level, right associativity) : prog_scope.
Local Open Scope prog_scope.

(** A call to a library routine: its exception propagates. *)
Definition call {R : Type} (c : libcall R) : prog R :=
  Call c (fun r => match r with inl e => Raise e | inr x => Ret x end).

(** The body of a [try]: its result, or the exception it raised. *)
Fixpoint attempt {A : Type} (p : prog A) : prog (exn + A) :=
  match p with
  | Ret a => Ret (inr a)
  | Raise e => Ret (inl e)
  | Call c k => Call c (fun r => attempt (k r))
  end.

(** Running a program against a behaviour of the libraries. *)
Definition library : Type := forall R : Type, libcall R -> exn + R.

Fixpoint interp {A : Type} (lib : library) (p : prog A) : exn + A :=
  match p with
  | Ret a => inr a
  | Raise e => inl e
  | Call c k => interp lib (k (lib _ c))
  end.

(** ** The builtins [int] and [float] *)

Definition raise {A : Type} (c : exc_class) (msg : string) : prog A :=
  Raise (Exception c msg).

Definition str_of_nat (n : nat) : string :=
  DecimalString.NilZero.string_of_uint (Nat.to_uint n).

Definition invalid_literal {A : Type} (s : string) : prog A :=
  raise ValueError ("invalid literal for int() with base 10: " ++ Text.repr s).

Definition too_many_digits {A : Type} (nd : nat) : prog A :=
  raise ValueError
    ("Exceeds the limit (4300 digits) for integer string conversion: value has "
     ++ str_of_nat nd
     ++ " digits; use sys.set_int_max_str_digits() to increase the limit").

(** [int(s)] for a string: blanks around an optionally signed [digitpart]
    of at most 4300 digits, the limit CPython 3.11 starts with. *)
Definition int_of_str (s : string) : prog Z :=
  let '(neg, body) := Text.sign (Text.strip (Text.literal s)) in
  match Text.digitpart body with
  | Some (z, nd, rest) =>
      match rest with
      | [] =>
          if Nat.leb nd Text.max_str_digits then Ret (Text.signed neg z)
          else too_many_digits nd
      | c :: _ =>
          if (Ascii.eqb c "_" || Nat.leb nd Text.max_str_digits)%bool
          then invalid_literal s
          else too_many_digits nd
      end
  | None => invalid_literal s
  end.

(** The exponent of a float literal: nothing, or [e] or [E], an optional
    sign and a [digitpart]. *)
Definition exponent_of (l : list ascii) : option Z :=
  match l with
  | [] => Some 0
  | c :: rest =>
      if (Ascii.eqb c "e" || Ascii.eqb c "E")%bool then
        let '(neg, digits) := Text.sign rest in
        match Text.digitpart digits with
        | Some (z, _, []) => Some (Text.signed neg z)
        | _ => None
        end
      else None
  end.

(** [number ::= [digitpart] "." digitpart | digitpart ["."]] with its
    exponent, as a decimal. *)
Definition number_of (l : list ascii) : option (Z * Z) :=
  match Text.digitpart l with
  | Some (i, _, rest) =>
      match rest with
      | "."%char :: rest1 =>
          match Text.digitpart rest1 with
          | Some (f, nf, rest2) =>
              match exponent_of rest2 with
              | Some e => Some (i * 10 ^ Z.of_nat nf + f, e - Z.of_nat nf)
              | None => None
              end
          | None =>
              match exponent_of rest1 with
              | Some e => Some (i, e)
              | None => None
              end
          end
      | _ =>
          match exponent_of rest with
          | Some e => Some (i, e)
          | None => None
          end
      end
  | None =>
      match l with
      | "."%char :: rest1 =>
          match Text.digitpart rest1 with
          | Some (f, nf, rest2) =>
              match exponent_of rest2 with
              | Some e => Some (f, e - Z.of_nat nf)
              | None => None
              end
          | None => None
          end
      | _ => None
      end
  end.

(** [float(s)] for a string. *)
Definition float_of_str (s : string) : prog pyfloat :=
  let '(neg, body) := Text.sign (Text.strip (Text.literal s)) in
  let word := Text.lower (string_of_list_ascii body) in
  if (String.eqb word "inf" || String.eqb word "infinity")%bool
  then Ret (Infinity neg)
  else if String.eqb word "nan" then Ret NaN
  else
    match number_of body with
    | Some (m, e) => Ret (Finite (Text.signed neg m) e)
    | None =>
        raise ValueError ("could not convert string to float: " ++ Text.repr s)
    end.

(** What [get(key, fallback)] gives on the fields of a request: the string
    sent for the key, or the fallback of the call. *)
Inductive got (D : Type) : Type :=
| Sent (s : string)
| Fallback (d : D).

Arguments Sent {D} s.
Arguments Fallback {D} d.

(** [int(v)] and [float(v)] on a form field with a numeric fallback. *)
Definition int (v : got Z) : prog Z :=
  match v with
  | Sent s => int_of_str s
  | Fallback z => Ret z
  end.

Definition float (v : got pyfloat) : prog pyfloat :=
  match v with
  | Sent s => float_of_str s
  | Fallback x => Ret x
  end.

(** ** Tables *)

(** A pandas table: its columns in order, each with its label. *)
Definition DataFrame : Type := list (string * list cell).

(** The first value a key has in a list of pairs. *)
Fixpoint assoc {V : Type} (key : string) (l : list (string * V)) : option V :=
  match l with
  | [] => None
  | (k, v) :: rest => if String.eqb k key then Some v else assoc key rest
  end.

Definition nrows (df : DataFrame) : nat :=
  match df with
  | [] => 0%nat
  | (_, col) :: _ => length col
  end.

Definition dquote : string := String (ascii_of_nat 34) EmptyString.

(** [data[label]]. *)
Definition getitem (data : DataFrame) (label : string) : prog (list cell) :=
  match assoc label data with
  | Some col => Ret col
  | None => Raise (Exception KeyError (Text.repr label))
  end.

(** [data.drop(columns=[label])]. *)
Definition drop (data : DataFrame) (label : string) : prog DataFrame :=
  match assoc label data with
  | Some _ =>
      Ret (List.filter (fun c => negb (String.eqb (fst c) label)) data)
  | None =>
      Raise (Exception KeyError
               (dquote ++ "[" ++ Text.repr label ++ "] not found in axis"
                ++ dquote))
  end.

(** [data.values]: the cells by rows. *)
Definition values (data : DataFrame) : ndarray :=
  map (fun i => map (fun c => nth i (snd c) CEmpty) data) (seq 0 (nrows data)).

(** [pd.DataFrame({'Name': names, 'Cluster': labels})], where [labels] is an
    array of labels or [None]; pandas repeats [None] down the column. *)
Definition DataFrame_Name_Cluster (names : list cell)
    (labels : option (list Z)) : prog DataFrame :=
  match labels with
  | None => Ret [("Name", names); ("Cluster", map (fun _ => CEmpty) names)]
  | Some l =>
      if Nat.eqb (length l) (length names)
      then Ret [("Name", names); ("Cluster", map CInt l)]
      else
        raise ValueError
          ("array length " ++ str_of_nat (length l)
           ++ " does not match index length " ++ str_of_nat (length names))
  end.

(** ** Classes and instances *)

(** The attributes of an instance, and the local variables of a call. *)
Abbreviation attrs := (gmap string value).
Abbreviation locals := (gmap string value).

(** A function of a class body: its parameters after [self] with their
    defaults, and its body, which gives what the function returns ([None]
    or an array of labels) and the attributes of [self] afterwards. *)
Record pydef : Type := Def {
  params : list (string * option value);
  body : attrs -> locals -> prog (option (list Z) * attrs)
}.

(** A class statement: the name and the functions its body binds. *)
Record pyclass : Type := Class {
  cls_name : string;
  cls_body : list (string * pydef)
}.

Record instance : Type := Instance {
  inst_class : pyclass;
  inst_dict : attrs
}.

Fixpoint bind_positional (fname : string) (ps : list (string * option value))
    (args : list value) (bound : locals) : prog locals :=
  match args, ps with
  | [], _ => Ret bound
  | a :: args', (p, _) :: ps' => bind_positional fname ps' args' (<[p := a]> bound)
  | _ :: _, [] =>
      raise TypeError (fname ++ "() takes fewer positional arguments than were given")
  end.

Definition bind_keyword (fname : string) (ps : list (string * option value))
    (acc : prog locals) (kw : string * value) : prog locals :=
  bound <- acc ;;
  match assoc (fst kw) ps with
  | None =>
      raise TypeError
        (fname ++ "() got an unexpected keyword argument " ++ Text.repr (fst kw))
  | Some _ =>
      match bound !! fst kw with
      | Some _ =>
          raise TypeError
            (fname ++ "() got multiple values for argument " ++ Text.repr (fst kw))
      | None => Ret (<[fst kw := snd kw]> bound)
      end
  end.

Definition bind_default (fname : string) (acc : prog locals)
    (p : string * option value) : prog locals :=
  bound <- acc ;;
  match bound !! fst p, snd p with
  | Some _, _ => Ret bound
  | None, Some d => Ret (<[fst p := d]> bound)
  | None, None =>
      raise TypeError
        (fname ++ "() missing 1 required positional argument: " ++ Text.repr (fst p))
  end.

(** The binding of a call's arguments to a function's parameters. *)
Definition bind_args (fname : string) (d : pydef) (args : list value)
    (kwargs : list (string * value)) : prog locals :=
  fold_left (bind_default fname)
    (params d)
    (fold_left (bind_keyword fname (params d)) kwargs
       (bind_positional fname (params d) args ∅)).

(** Calling a class [C] with arguments: a class whose body binds no
    [__init__] has that of [object], which takes no arguments. *)
Definition type_call (C : pyclass) (args : list value)
    (kwargs : list (string * value)) : prog instance :=
  match assoc "__init__" (cls_body C) with
  | Some d =>
      bound <- bind_args "__init__" d args kwargs ;;
      r <- body d ∅ bound ;;
      match fst r with
      | None => Ret (Instance C (snd r))
      | Some _ =>
          raise TypeError "__init__() should return None, not 'ndarray'"
      end
  | None =>
      match args, kwargs with
      | [], [] => Ret (Instance C ∅)
      | _, _ => raise TypeError (cls_name C ++ "() takes no arguments")
      end
  end.

(** [self.name] inside a method of the class called [cname]. *)
Definition getattr (cname : string) (self : attrs) (name : string) : prog value :=
  match self !! name with
  | Some v => Ret v
  | None =>
      raise AttributeError
        (Text.repr cname ++ " object has no attribute " ++ Text.repr name)
  end.

(** Calling the method [name] of [obj], a function of its class. *)
Definition call_method (obj : instance) (name : string) (args : list value)
    (kwargs : list (string * value)) : prog (option (list Z) * instance) :=
  match assoc name (cls_body (inst_class obj)) with
  | Some d =>
      bound <- bind_args name d args kwargs ;;
      r <- body d (inst_dict obj) bound ;;
      Ret (fst r, Instance (inst_class obj) (snd r))
  | None =>
      raise AttributeError
        (Text.repr (cls_name (inst_class obj)) ++ " object has no attribute "
         ++ Text.repr name)
  end.

(** The value of a bound parameter. *)
Definition local (bound : locals) (name : string) : value :=
  default VNone (bound !! name).

(** ** The clusterers *)

Definition KMeansClusterer : pyclass :=
  Class "KMeansClusterer"
    [ ("init",
       Def [("data", None); ("n_clusters", None)]
         (fun self args =>
            let self := <["data" := local args "data"]> self in
            let self := <["n_clusters" := local args "n_clusters"]> self in
            let self := <["model" := VNone]> self in
            Ret (None, self)));
      ("fit_predict",
       Def []
         (fun self _ =>
            n_clusters <- getattr "KMeansClusterer" self "n_clusters" ;;
            let model := KMeans n_clusters in
            let self := <["model" := VEstimator model]> self in
            data <- getattr "KMeansClusterer" self "data" ;;
            labels <- call (fit_predict model data) ;;
            Ret (Some labels, self))) ].

Definition DBSCANClusterer : pyclass :=
  Class "DBSCANClusterer"
    [ ("init",
       Def [("data", None); ("eps", Some (VFloat (Finite 5 (-1))));
            ("min_samples", Some (VInt 5))]
         (fun self args =>
            let self := <["data" := local args "data"]> self in
            let self := <["eps" := local args "eps"]> self in
            let self := <["min_samples" := local args "min_samples"]> self in
            let self := <["model" := VNone]> self in
            Ret (None, self)));
      ("fit_predict",
       Def []
         (fun self _ =>
            eps <- getattr "DBSCANClusterer" self "eps" ;;
            min_samples <- getattr "DBSCANClusterer" self "min_samples" ;;
            let model := DBSCAN eps min_samples in
            let self := <["model" := VEstimator model]> self in
            data <- getattr "DBSCANClusterer" self "data" ;;
            labels <- call (fit_predict model data) ;;
            Ret (Some labels, self))) ].

Definition HierarchicalClusterer : pyclass :=
  Class "HierarchicalClusterer"
    [ ("init",
       Def [("data", None); ("method", Some (VStr "ward"));
            ("threshold", Some (VFloat (Finite 15 (-1))));
            ("criterion", Some (VStr "distance"))]
         (fun self args =>
            let self := <["data" := local args "data"]> self in
            let self := <["method" := local args "method"]> self in
            let self := <["threshold" := local args "threshold"]> self in
            let self := <["criterion" := local args "criterion"]> self in
            let self := <["linkage_matrix" := VNone]> self in
            Ret (None, self)));
      ("fit_predict",
       Def []
         (fun self _ =>
            data <- getattr "HierarchicalClusterer" self "data" ;;
            method <- getattr "HierarchicalClusterer" self "method" ;;
            Zm <- call (linkage data method) ;;
            let self := <["linkage_matrix" := VArray Zm]> self in
            linkage_matrix <- getattr "HierarchicalClusterer" self "linkage_matrix" ;;
            threshold <- getattr "HierarchicalClusterer" self "threshold" ;;
            criterion <- getattr "HierarchicalClusterer" self "criterion" ;;
            labels <- call (fcluster linkage_matrix threshold criterion) ;;
            Ret (Some labels, self))) ].

Definition MeanShiftClusterer : pyclass :=
  Class "MeanShiftClusterer"
    [ ("init",
       Def [("data", None)]
         (fun self args =>
            let self := <["data" := local args "data"]> self in
            let self := <["model" := VNone]> self in
            Ret (None, self)));
      ("fit_predict",
       Def []
         (fun self _ =>
            let model := MeanShift in
            let self := <["model" := VEstimator model]> self in
            data <- getattr "MeanShiftClusterer" self "data" ;;
            labels <- call (fit_predict model data) ;;
            Ret (Some labels, self))) ].

Definition AgglomerativeClusterer : pyclass :=
  Class "AgglomerativeClusterer"
    [ ("init",
       Def [("data", None); ("n_clusters", Some (VInt 2))]
         (fun self args =>
            let self := <["data" := local args "data"]> self in
            let self := <["n_clusters" := local args "n_clusters"]> self in
            let self := <["model" := VNone]> self in
            Ret (None, self)));
      ("fit_predict",
       Def []
         (fun self _ =>
            n_clusters <- getattr "AgglomerativeClusterer" self "n_clusters" ;;
            let model := AgglomerativeClustering n_clusters in
            let self := <["model" := VEstimator model]> self in
            data <- getattr "AgglomerativeClusterer" self "data" ;;
            labels <- call (fit_predict model data) ;;
            Ret (Some labels, self))) ].

(** ** perform_clustering *)

Definition invalid_method_message : string :=
  "Invalid clustering method. Choose 'kmeans', 'dbscan', 'hierarchical', 'meanshift', or 'agglomerative'.".

Definition perform_clustering (data : DataFrame) (method : string)
    (n_clusters : Z) (eps : pyfloat) (min_samples : Z) (threshold : pyfloat)
  : prog DataFrame :=
  names <- getitem data "Name" ;;
  dropped <- drop data "Name" ;;
  let features := VArray (values dropped) in
  clusterer <-
    (if String.eqb method "kmeans" then
       type_call KMeansClusterer [features] [("n_clusters", VInt n_clusters)]
     else if String.eqb method "dbscan" then
       type_call DBSCANClusterer [features]
         [("eps", VFloat eps); ("min_samples", VInt min_samples)]
     else if String.eqb method "hierarchical" then
       type_call HierarchicalClusterer [features]
         [("method", VStr "ward"); ("threshold", VFloat threshold)]
     else if String.eqb method "meanshift" then
       type_call MeanShiftClusterer [features] []
     else if String.eqb method "agglomerative" then
       type_call AgglomerativeClusterer [features]
         [("n_clusters", VInt n_clusters)]
     else raise ValueError invalid_method_message) ;;
  r <- call_method clusterer "fit_predict" [] [] ;;
  output_data <- DataFrame_Name_Cluster names (fst r) ;;
  Ret output_data.

(** ** The guide *)

(** The four inner dictionaries of the literal in [get_clustering_guide]. *)
Definition english_guide : gmap string string :=
  list_to_map
    [ ("kmeans",
       "KMeans is best suited for spherical clusters with similar sizes and requires the number of clusters as input.");
      ("dbscan",
       "DBSCAN is ideal for detecting arbitrary-shaped clusters and noise, without needing the number of clusters.");
      ("hierarchical",
       "Hierarchical clustering is suitable for hierarchical structures, with dendrograms to visualize relationships.");
      ("meanshift",
       "MeanShift is good for finding clusters with a high-density region without needing the number of clusters.");
      ("agglomerative",
       "Agglomerative clustering works well for building a hierarchy of clusters using a bottom-up approach.") ].

Definition farsi_guide : gmap string string :=
  list_to_map
    [ ("kmeans",
       "KMeans برای خوشههای کروی با اندازههای مشابه و نیازمند تعداد خوشهها به عنوان ورودی مناسب است.");
      ("dbscan",
       "DBSCAN برای شناسایی خوشههای با اشکال دلخواه و نویز، بدون نیاز به تعداد خوشهها ایدهآل است.");
      ("hierarchical",
       "خوشهبندی سلسلهمراتبی برای ساختارهای سلسلهمراتبی مناسب است و دندروگرامها روابط را نمایش میدهند.");
      ("meanshift",
       "MeanShift برای یافتن خوشههای با ناحیه تراکم بالا، بدون نیاز به تعداد خوشهها خوب است.");
      ("agglomerative",
       "خوشهبندی Agglomerative برای ساخت سلسلهمراتب خوشهها از پایین به بالا مناسب است.") ].

Definition arabic_guide : gmap string string :=
  list_to_map
    [ ("kmeans",
       "KMeans مناسب لتصنيف المجموعات الكروية المتشابهة الحجم ويتطلب إدخال عدد المجموعات.");
      ("dbscan",
       "DBSCAN مثالي لاكتشاف المجموعات ذات الأشكال التعسفية والضوضاء، دون الحاجة إلى عدد المجموعات.");
      ("hierarchical",
       "التصنيف الهرمي مناسب للهياكل الهرمية، ويعرض العلاقات عبر المخططات الشجرية.");
      ("meanshift",
       "MeanShift جيد لتحديد المجموعات ذات الكثافة العالية دون الحاجة إلى عدد المجموعات.");
      ("agglomerative",
       "التصنيف التجميعي مناسب لبناء تسلسل هرمي من المجموعات باستخدام نهج من الأسفل إلى الأعلى.") ].

Definition french_guide : gmap string string :=
  list_to_map
    [ ("kmeans",
       "KMeans est idéal pour les clusters sphériques de taille similaire et nécessite le nombre de clusters en entrée.");
      ("dbscan",
       "DBSCAN est idéal pour détecter des clusters de formes arbitraires et le bruit, sans nécessiter le nombre de clusters.");
      ("hierarchical",
       "Le clustering hiérarchique est adapté aux structures hiérarchiques et utilise des dendrogrammes pour visualiser les relations.");
      ("meanshift",
       "MeanShift est bien adapté pour trouver des clusters avec une région de forte densité sans nécessiter le nombre de clusters.");
      ("agglomerative",
       "Le clustering agglomératif fonctionne bien pour construire une hiérarchie de clusters avec une approche ascendante.") ].

(** The literal itself; the function builds it anew at every call. *)
Definition guides : gmap string (gmap string string) :=
  list_to_map
    [ ("english", english_guide);
      ("farsi", farsi_guide);
      ("arabic", arabic_guide);
      ("french", french_guide) ].

(** [d.get(key, fallback)]. *)
Definition dict_get {V : Type} (d : gmap string V) (key : string) (fallback : V) : V :=
  default fallback (d !! key).

Definition get_clustering_guide (language : string) : gmap string string :=
  dict_get guides (Text.lower language) (guides !!! "english").

(** ** Requests, responses and the disk *)

(** A file, as [pd.read_excel] reads it: a spreadsheet with its table, or
    one on which the reader raises. *)
Inductive file : Type :=
| Spreadsheet (table : DataFrame)
| Unreadable (error : exn).

Definition read_excel (f : file) : prog DataFrame :=
  match f with
  | Spreadsheet table => Ret table
  | Unreadable error => Raise error
  end.

(** A request: the uploaded files, the form fields and the query string,
    each a multi-dict whose first value for a key is the one read. *)
Record Request : Type := {
  files : list (string * file);
  form : list (string * string);
  args : list (string * string)
}.

(** [request.form.get(key, fallback)]. *)
Definition form_get {D : Type} (request : Request) (key : string) (fallback : D) : got D :=
  match assoc key (form request) with
  | Some s => Sent s
  | None => Fallback fallback
  end.

(** A field whose fallback is a string too. *)
Definition text (v : got string) : string :=
  match v with
  | Sent s => s
  | Fallback d => d
  end.

(** [request.args.get(key, fallback)]. *)
Definition args_get (request : Request) (key fallback : string) : string :=
  match assoc key (args request) with
  | Some s => s
  | None => fallback
  end.

Inductive payload : Type :=
| Json (object : gmap string string)
| Attachment (name : string) (content : file).

Record Response : Type := { payload_of : payload; status_code : Z }.

(** [jsonify(d)] with status 200, and [jsonify(d), code]. *)
Definition jsonify (d : gmap string string) : Response :=
  {| payload_of := Json d; status_code := 200 |}.

Definition with_status (r : Response) (code : Z) : Response :=
  {| payload_of := payload_of r; status_code := code |}.

(** The files on disk by their names as the process opens them, relative
    to its working directory; the names written since the process started,
    oldest first; and the root path of the application, the directory of
    [CLUSTERING_API.py], when it is not the working directory. *)
Record world : Type := World {
  disk : gmap string file;
  writes : list string;
  root_path : option string
}.

(** [df.to_excel(name, index=False)]: the name is taken from the working
    directory. *)
Definition to_excel (df : DataFrame) (name : string) (w : world) : world :=
  World (<[name := Spreadsheet df]> (disk w)) (writes w ++ [name]) (root_path w).

(** A name taken from the root path of the application. *)
Definition from_root (w : world) (name : string) : string :=
  match root_path w with
  | None => name
  | Some dir => dir ++ "/" ++ name
  end.

(** [send_file(name, as_attachment=True)]: Flask takes the name from the
    root path of the application. *)
Definition send_file (name : string) (w : world) : prog Response :=
  match disk w !! from_root w name with
  | Some content => Ret {| payload_of := Attachment name content; status_code := 200 |}
  | None =>
      raise FileNotFoundError
        ("[Errno 2] No such file or directory: " ++ Text.repr (from_root w name))
  end.

(** ** The views *)

Definition output_file : string := "clusters_output.xlsx".

(** The view from its [try] statement on, given how the call of
    [perform_clustering] in it ended. *)
Definition respond (r : exn + DataFrame) (w : world) : prog (Response * world) :=
  match r with
  | inl e =>
      if is_ValueError (exc_type e)
      then Ret (with_status (jsonify {[ "error" := exc_str e ]}) 400, w)
      else Raise e
  | inr result_df =>
      let w := to_excel result_df output_file w in
      response <- send_file output_file w ;;
      Ret (response, w)
  end.

Definition cluster_data (request : Request) (w : world) : prog (Response * world) :=
  match assoc "file" (files request) with
  | None => Ret (with_status (jsonify {[ "error" := "No file uploaded" ]}) 400, w)
  | Some file =>
      let method := text (form_get request "method" "kmeans") in
      n_clusters <- int (form_get request "n_clusters" 3) ;;
      eps <- float (form_get request "eps" (Finite 5 (-1))) ;;
      min_samples <- int (form_get request "min_samples" 5) ;;
      threshold <- float (form_get request "threshold" (Finite 15 (-1))) ;;
      data <- read_excel file ;;
      r <- attempt (perform_clustering data method n_clusters eps min_samples threshold) ;;
      respond r w
  end.

Definition clustering_guide (request : Request) (w : world) : prog (Response * world) :=
  let language := Text.lower (args_get request "language" "english") in
  let guide := get_clustering_guide language in
  Ret (jsonify guide, w).

(** ** The service *)

(** What a program may end in: its result or the exception it raises, for
    some answers of the libraries it calls. *)
Inductive yields {A : Type} : prog A -> exn + A -> Prop :=
| yields_Ret (a : A) : yields (Ret a) (inr a)
| yields_Raise (e : exn) : yields (Raise e) (inl e)
| yields_Call (R : Type) (c : libcall R) (k : exn + R -> prog A)
    (answer : exn + R) (x : exn + A) :
    yields (k answer) x -> yields (Call c k) x.

Inductive http : Type :=
| POST_cluster (request : Request)
| GET_clustering_guide (request : Request).

Definition view (h : http) : world -> prog (Response * world) :=
  match h with
  | POST_cluster request => cluster_data request
  | GET_clustering_guide request => clustering_guide request
  end.

(** What the client gets: the view's response, or the server error Flask
    makes of an exception that leaves the view. *)
Inductive outcome : Type :=
| Returned (response : Response)
| Unhandled (e : exn).

(** One request.  An exception that leaves a view leaves the disk as it
    was: on this code no view raises after a write. *)
Inductive handles : http -> world -> outcome -> world -> Prop :=
| handles_Returned (h : http) (w w' : world) (response : Response) :
    yields (view h w) (inr (response, w')) ->
    handles h w (Returned response) w'
| handles_Unhandled (h : http) (w : world) (e : exn) :
    yields (view h w) (inl e) ->
    handles h w (Unhandled e) w.

(** A sequence of requests, one after the other. *)
Inductive serves : list http -> world -> world -> Prop :=
| serves_nil (w : world) : serves [] w w
| serves_cons (h : http) (rest : list http) (w w1 w2 : world) (o : outcome) :
    handles h w o w1 -> serves rest w1 w2 -> serves (h :: rest) w w2.

(** * The vocabulary of the properties *)

(** ** Programs *)

(** What [yields] says of each shape of program. *)
Definition yields_shape {A : Type} (p : prog A) (x : exn + A) : Prop :=
  match p with
  | Ret a => x = inr a
  | Raise e => x = inl e
  | Call c k => exists answer, yields (k answer) x
  end.

(** [int] and [float] call no library: they return or raise. *)
Definition settled {A : Type} (p : prog A) : Prop :=
  (exists a, p = Ret a) \/ (exists e, p = Raise e).

(** A class whose body binds [init] under the name [__init__] instead. *)
Definition with___init__ (C : pyclass) : pyclass :=
  Class (cls_name C)
    (map (fun d => if String.eqb (fst d) "init" then ("__init__", snd d) else d)
       (cls_body C)).

(** ** The guide *)

(** The keys with a dictionary of their own besides the English one. *)
Definition localized : list string := ["farsi"; "arabic"; "french"].

(** The key of a guide request, as the view reads it. *)
Definition language_of (request : Request) : string :=
  args_get request "language" "english".

(** ** Clustering requests *)

(** The method names [perform_clustering] tests for. *)
Definition recognized : list string :=
  ["kmeans"; "dbscan"; "hierarchical"; "meanshift"; "agglomerative"].

(** The class [perform_clustering] calls for a method name. *)
Definition clusterer_of (method : string) : option pyclass :=
  if String.eqb method "kmeans" then Some KMeansClusterer
  else if String.eqb method "dbscan" then Some DBSCANClusterer
  else if String.eqb method "hierarchical" then Some HierarchicalClusterer
  else if String.eqb method "meanshift" then Some MeanShiftClusterer
  else if String.eqb method "agglomerative" then Some AgglomerativeClusterer
  else None.

(** The method of a request, as the view reads it. *)
Definition method_of (request : Request) : string :=
  text (form_get request "method" "kmeans").

(** The request carries a readable spreadsheet and numeric fields that
    [int] and [float] accept: the view gets as far as its [try]. *)
Definition reaches_clustering (request : Request) (data : DataFrame)
    (n_clusters : Z) (eps : pyfloat) (min_samples : Z) (threshold : pyfloat) : Prop :=
  assoc "file" (files request) = Some (Spreadsheet data)
  /\ int (form_get request "n_clusters" 3) = Ret n_clusters
  /\ float (form_get request "eps" (Finite 5 (-1))) = Ret eps
  /\ int (form_get request "min_samples" 5) = Ret min_samples
  /\ float (form_get request "threshold" (Finite 15 (-1))) = Ret threshold.

(** The two error responses of the view. *)
Definition no_file_response : Response :=
  with_status (jsonify {[ "error" := "No file uploaded" ]}) 400.

Definition invalid_method_response : Response :=
  with_status (jsonify {[ "error" := invalid_method_message ]}) 400.

(** The response of a request has status 400. *)
Definition status_400 (request : Request) (w : world) : Prop :=
  exists response w',
    handles (POST_cluster request) w (Returned response) w'
    /\ status_code response = 400.

(** The message of an error response names each recognized method. *)
Definition lists_methods (msg : string) : Prop :=
  Forall (fun m => Text.contains m msg = true) recognized.

(** The request is answered with status 400 and an error message that
    names the recognized methods. *)
Definition rejected_with_method_list (request : Request) (w : world) : Prop :=
  exists response w' msg,
    handles (POST_cluster request) w (Returned response) w'
    /\ status_code response = 400
    /\ payload_of response = Json {[ "error" := msg ]}
    /\ lists_methods msg.

(** ** Sample requests *)

(** An empty disk, nothing written yet. *)
Definition start : world := World ∅ [] None.

(** Two groups of two points each, far apart. *)
Definition two_blobs : DataFrame :=
  [ ("Name", [CText "a"; CText "b"; CText "c"; CText "d"]);
    ("x", [CFloat (Finite 0 0); CFloat (Finite 1 (-1));
           CFloat (Finite 10 0); CFloat (Finite 101 (-1))]);
    ("y", [CFloat (Finite 0 0); CFloat (Finite 2 (-1));
           CFloat (Finite 10 0); CFloat (Finite 102 (-1))]) ].

(** A table without an identifier column. *)
Definition no_names : DataFrame :=
  [ ("x", [CFloat (Finite 0 0); CFloat (Finite 1 (-1))]) ].

(** A request with the file [f] and the form fields [fields], and one
    without a file. *)
Definition upload (f : file) (fields : list (string * string)) : Request :=
  {| files := [("file", f)]; form := fields; args := [] |}.

Definition no_upload (fields : list (string * string)) : Request :=
  {| files := []; form := fields; args := [] |}.

(** A file pandas refuses. *)
Definition not_a_spreadsheet : file :=
  Unreadable (Exception ValueError
                "Excel file format cannot be determined, you must specify an engine manually.").

(** The two groups with kmeans and the right cluster count. *)
Definition kmeans_two_blobs_request : Request :=
  upload (Spreadsheet two_blobs) [("method", "kmeans"); ("n_clusters", "2")].



(** A disk on which an earlier request left its result. *)
Definition after_one_result : world := to_excel two_blobs output_file start.

(** A guide request for a language. *)
Definition guide_query (language : string) : Request :=
  {| files := []; form := []; args := [("language", language)] |}.

(** ** The clusterers used by hand *)

(** The five classes. *)
Definition clusterers : list pyclass :=
  [KMeansClusterer; DBSCANClusterer; HierarchicalClusterer; MeanShiftClusterer;
   AgglomerativeClusterer].

(** [c = C(); c.init(...); c.fit_predict()]: what [fit_predict] returns, and
    the instance afterwards. *)
Definition init_then_fit_predict (C : pyclass) (args : list value)
    (kwargs : list (string * value)) : prog (option (list Z) * instance) :=
  c <- type_call C [] [] ;;
  r <- call_method c "init" args kwargs ;;
  call_method (snd r) "fit_predict" [] [].

(** [c = C(); c.fit_predict()], without a call of [init]. *)
Definition fit_predict_uninitialized (C : pyclass) : prog (option (list Z) * instance) :=
  c <- type_call C [] [] ;;
  call_method c "fit_predict" [] [].

(** A continuation that hands an answer of a library on: its exception is
    raised, its labels are returned with an instance whose [model] is [m]. *)
Definition returns_labels (m : estimator)
    (k : exn + list Z -> prog (option (list Z) * instance)) : Prop :=
  (forall e, k (inl e) = Raise e)
  /\ forall labels, exists self,
       k (inr labels) = Ret (Some labels, self)
       /\ inst_dict self !! "model" = Some (VEstimator m).

(** ** Form fields *)

(** The request with one more form field, sent first. *)
Definition with_field (key val : string) (request : Request) : Request :=
  {| files := files request;
     form := (key, val) :: form request;
     args := args request |}.

(** * Properties *)

(** ** Text *)

Lemma lower_char_idempotent (c : ascii) :
  Text.lower_char (Text.lower_char c) = Text.lower_char c.
Proof. destruct c as [[] [] [] [] [] [] [] []]; reflexivity. Qed.

Lemma lower_idempotent (s : string) : Text.lower (Text.lower s) = Text.lower s.
Proof.
  induction s as [|c s IH]; simpl; [reflexivity|].
  now rewrite lower_char_idempotent, IH.
Qed.

(** ** Programs *)

Lemma yields_inv {A : Type} (p : prog A) (x : exn + A) :
  yields p x -> yields_shape p x.
Proof. destruct 1; simpl; eauto. Qed.

Lemma yields_bind {A B : Type} (p : prog A) (f : A -> prog B) (x : exn + B) :
  yields (bind p f) x ->
  (exists a, yields p (inr a) /\ yields (f a) x)
  \/ (exists e, yields p (inl e) /\ x = inl e).
Proof.
  revert x. induction p as [a|e|R c k IH]; simpl; intros x H.
  - left. exists a. split; [constructor | exact H].
  - right. exists e. apply yields_inv in H. simpl in H. subst x.
    split; [constructor | reflexivity].
  - apply yields_inv in H. destruct H as [answer H].
    destruct (IH answer x H) as [(a & Ha & Hf)|(e & He & ->)].
    + left. exists a. split; [econstructor; exact Ha | exact Hf].
    + right. exists e. split; [econstructor; exact He | reflexivity].
Qed.

Lemma yields_attempt {A : Type} (p : prog A) (x : exn + (exn + A)) :
  yields (attempt p) x -> exists r, x = inr r /\ yields p r.
Proof.
  revert x. induction p as [a|e|R c k IH]; simpl; intros x H.
  - apply yields_inv in H. simpl in H. subst x.
    exists (inr a). split; [reflexivity | constructor].
  - apply yields_inv in H. simpl in H. subst x.
    exists (inl e). split; [reflexivity | constructor].
  - apply yields_inv in H. destruct H as [answer H].
    destruct (IH answer x H) as (r & -> & Hr).
    exists r. split; [reflexivity | econstructor; exact Hr].
Qed.

Lemma int_settled (v : got Z) : settled (int v).
Proof.
  unfold settled, int, int_of_str, invalid_literal, too_many_digits, raise.
  destruct v; eauto.
  destruct (Text.sign _) as [neg l].
  destruct (Text.digitpart l) as [[[z nd] [|c rest]]|]; eauto.
  - destruct (Nat.leb nd _); eauto.
  - destruct (_ || _)%bool; eauto.
Qed.

Lemma float_settled (v : got pyfloat) : settled (float v).
Proof.
  unfold settled, float, float_of_str, raise.
  destruct v; eauto.
  destruct (Text.sign _) as [neg l].
  destruct (_ || _)%bool; eauto.
  destruct (String.eqb _ "nan"); eauto.
  destruct (number_of l) as [[m e]|]; eauto.
Qed.

(** ** The builtins and the object model on examples *)

Example int_of_padded_literal : int (Sent " -1_0 ") = Ret (-10).
Proof. reflexivity. Qed.

Example int_of_decimal_point :
  int (Sent "3.0") = raise ValueError "invalid literal for int() with base 10: '3.0'".
Proof. reflexivity. Qed.

Example int_of_fallback : int (Fallback 3) = Ret 3.
Proof. reflexivity. Qed.

(** Digits and blanks of other scripts are read; the ASCII characters 28
    to 31 are no blanks for [int]. *)
Example int_of_arabic_digits : int (Sent "١٢") = Ret 12.
Proof. reflexivity. Qed.

Example int_of_no_break_space :
  int (Sent (String (ascii_of_nat 194) (String (ascii_of_nat 160) "3"))) = Ret 3.
Proof. reflexivity. Qed.

Example int_of_file_separator :
  exists e,
    int (Sent (String (ascii_of_nat 28) ("3" ++ String (ascii_of_nat 31) "")))
    = Raise e
    /\ exc_type e = ValueError.
Proof. eexists. split; reflexivity. Qed.

Example int_of_4301_digits :
  (exists z, int (Sent (string_of_list_ascii (repeat "1"%char 4300))) = Ret z)
  /\ exists e,
       int (Sent (string_of_list_ascii (repeat "1"%char 4301))) = Raise e
       /\ exc_type e = ValueError.
Proof.
  split.
  - eexists. vm_compute. reflexivity.
  - eexists. split; vm_compute; reflexivity.
Qed.

Example float_of_fullwidth_digits : float (Sent "１.５") = Ret (Finite 15 (-1)).
Proof. reflexivity. Qed.

Example float_of_literals :
  float (Sent "0.5") = Ret (Finite 5 (-1))
  /\ float (Sent ".5E2") = Ret (Finite 5 1)
  /\ float (Sent "-INF") = Ret (Infinity true)
  /\ float (Sent "1e") = raise ValueError "could not convert string to float: '1e'".
Proof. repeat split. Qed.

(** Such a class takes its arguments, and its [fit_predict] gets to the
    estimator: the labels are whatever the library answers. *)
Example with___init___reaches_KMeans (X : ndarray) (labels : list Z) :
  yields
    (clusterer <- type_call (with___init__ KMeansClusterer) [VArray X]
                    [("n_clusters", VInt 2)] ;;
     r <- call_method clusterer "fit_predict" [] [] ;;
     Ret (fst r))
    (inr (Some labels)).
Proof.
  cbn. apply (yields_Call _ (fit_predict (KMeans (VInt 2)) (VArray X)) _ (inr labels)).
  cbn. constructor.
Qed.

(** As written, the class takes none. *)
Example KMeansClusterer_takes_no_arguments (X : ndarray) :
  type_call KMeansClusterer [VArray X] [("n_clusters", VInt 2)] =
    raise TypeError "KMeansClusterer() takes no arguments".
Proof. reflexivity. Qed.

(** ** The guide *)

Lemma guides_lookup (key : string) :
  guides !! key =
    if String.eqb key "english" then Some english_guide
    else if String.eqb key "farsi" then Some farsi_guide
    else if String.eqb key "arabic" then Some arabic_guide
    else if String.eqb key "french" then Some french_guide
    else None.
Proof.
  unfold guides. cbn [list_to_map foldr uncurry fst snd].
  repeat (rewrite lookup_insert; case_decide as E;
          [subst key; reflexivity
          | apply not_eq_sym, String.eqb_neq in E; rewrite E; clear E]).
  apply lookup_empty.
Qed.

Lemma guides_english : guides !!! "english" = english_guide.
Proof.
  unfold lookup_total, map_lookup_total. now rewrite guides_lookup.
Qed.

(** The guide of a key, by the lower-case form of the key. *)
Lemma get_clustering_guide_cases (language : string) :
  get_clustering_guide language =
    let key := Text.lower language in
    if String.eqb key "farsi" then farsi_guide
    else if String.eqb key "arabic" then arabic_guide
    else if String.eqb key "french" then french_guide
    else english_guide.
Proof.
  unfold get_clustering_guide, dict_get. rewrite guides_lookup, guides_english.
  cbv zeta. destruct (String.eqb_spec (Text.lower language) "english") as [->|_];
    [reflexivity|].
  repeat (destruct (String.eqb _ _); [reflexivity|]). reflexivity.
Qed.

Lemma farsi_guide_is_not_english : farsi_guide <> english_guide.
Proof.
  intros H. apply (f_equal (fun d : gmap string string => d !! "kmeans")) in H.
  vm_compute in H. discriminate H.
Qed.

(** C4, as the code has it: a key whose lower-case form is "farsi",
    "arabic" or "french" gets the dictionary of that language, and a key
    whose lower-case form is none of the three, "english" among them, gets
    the English dictionary. *)
Theorem get_clustering_guide_by_lower_key (language : string) :
  (Text.lower language = "farsi" -> get_clustering_guide language = farsi_guide)
  /\ (Text.lower language = "arabic" -> get_clustering_guide language = arabic_guide)
  /\ (Text.lower language = "french" -> get_clustering_guide language = french_guide)
  /\ (~ In (Text.lower language) localized ->
      get_clustering_guide language = english_guide).
Proof.
  rewrite get_clustering_guide_cases. cbv zeta.
  repeat split.
  - intros ->. reflexivity.
  - intros ->. reflexivity.
  - intros ->. reflexivity.
  - intros Hnot.
    destruct (String.eqb_spec (Text.lower language) "farsi") as [E|_];
      [exfalso; apply Hnot; rewrite E; simpl; tauto|].
    destruct (String.eqb_spec (Text.lower language) "arabic") as [E|_];
      [exfalso; apply Hnot; rewrite E; simpl; tauto|].
    destruct (String.eqb_spec (Text.lower language) "french") as [E|_];
      [exfalso; apply Hnot; rewrite E; simpl; tauto|].
    reflexivity.
Qed.

(** C4 as stated fails at the key "FARSI": it is none of "farsi", "arabic",
    "french" (nor "english"), and its guide is the Farsi dictionary, which
    is not the English one. *)
Lemma get_clustering_guide_FARSI_not_english :
  ~ In "FARSI" localized
  /\ get_clustering_guide "FARSI" = farsi_guide
  /\ get_clustering_guide "FARSI" <> english_guide.
Proof.
  assert (E : get_clustering_guide "FARSI" = farsi_guide).
  { rewrite get_clustering_guide_cases. reflexivity. }
  split; [|split].
  - simpl. intros [H|[H|[H|[]]]]; discriminate H.
  - exact E.
  - rewrite E. exact farsi_guide_is_not_english.
Qed.

Lemma clustering_guide_answer (request : Request) (w : world) :
  clustering_guide request w =
    Ret (jsonify (get_clustering_guide (language_of request)), w).
Proof.
  unfold clustering_guide, language_of, get_clustering_guide. cbv zeta.
  now rewrite lower_idempotent.
Qed.

(** C10: the guide lookup is case-insensitive.  The guide of a key is the
    guide of its lower-case form, so two keys with the same lower-case form
    get the same dictionary; "FARSI", "Farsi" and "farsi" get the Farsi
    dictionary, which is not the English one, "ARABIC" the Arabic, "French"
    the French and "ENGLISH" the English one; and the endpoint, which lowers
    the key once more before the lookup, answers with the guide of the
    lower-case form of the key as sent. *)
Theorem get_clustering_guide_case_insensitive (s : string) :
  get_clustering_guide s = get_clustering_guide (Text.lower s)
  /\ (forall t, Text.lower s = Text.lower t ->
                get_clustering_guide s = get_clustering_guide t)
  /\ get_clustering_guide "FARSI" = farsi_guide
  /\ get_clustering_guide "Farsi" = farsi_guide
  /\ get_clustering_guide "farsi" = farsi_guide
  /\ get_clustering_guide "FARSI" <> get_clustering_guide "english"
  /\ get_clustering_guide "ARABIC" = arabic_guide
  /\ get_clustering_guide "French" = french_guide
  /\ get_clustering_guide "ENGLISH" = english_guide
  /\ (forall (request : Request) (w : world),
        args_get request "language" "english" = s ->
        clustering_guide request w = Ret (jsonify (get_clustering_guide (Text.lower s)), w)).
Proof.
  assert (E : forall t, get_clustering_guide t = get_clustering_guide (Text.lower t)).
  { intros t. unfold get_clustering_guide. now rewrite lower_idempotent. }
  assert (F : get_clustering_guide "FARSI" = farsi_guide).
  { rewrite get_clustering_guide_cases. reflexivity. }
  split; [apply E|].
  split; [intros t Hst; rewrite (E s), (E t), Hst; reflexivity|].
  split; [exact F|].
  split; [rewrite get_clustering_guide_cases; reflexivity|].
  split; [rewrite get_clustering_guide_cases; reflexivity|].
  split.
  { rewrite F. replace (get_clustering_guide "english") with english_guide
      by (rewrite get_clustering_guide_cases; reflexivity).
    exact farsi_guide_is_not_english. }
  split; [rewrite get_clustering_guide_cases; reflexivity|].
  split; [rewrite get_clustering_guide_cases; reflexivity|].
  split; [rewrite get_clustering_guide_cases; reflexivity|].
  intros request w <-. rewrite clustering_guide_answer. unfold language_of.
  now rewrite <- E.
Qed.

Lemma handles_guide (request : Request) (w w' : world) (o : outcome) :
  handles (GET_clustering_guide request) w o w' ->
  o = Returned (jsonify (get_clustering_guide (language_of request))) /\ w' = w.
Proof.
  intros H. inversion H as [h w0 w1 response Hy|h w0 e Hy]; subst;
    simpl in Hy; rewrite clustering_guide_answer in Hy;
    apply yields_inv in Hy; simpl in Hy.
  - now inversion Hy.
  - discriminate Hy.
Qed.

Lemma handles_guide_exists (request : Request) (w : world) :
  handles (GET_clustering_guide request) w
    (Returned (jsonify (get_clustering_guide (language_of request)))) w.
Proof.
  apply handles_Returned. simpl. rewrite clustering_guide_answer. constructor.
Qed.

(** C7: the guide is a fixed table.  Whatever requests were served before
    and whatever they left on disk, two guide requests with the same
    language key get the same dictionary, the one [get_clustering_guide]
    gives for the key, and serving them changes nothing. *)
Theorem guide_independent_of_history
    (history1 history2 : list http) (w1 w1' w1'' w2 w2' w2'' : world)
    (request1 request2 : Request) (o1 o2 : outcome) :
  serves history1 w1 w1' ->
  serves history2 w2 w2' ->
  language_of request1 = language_of request2 ->
  handles (GET_clustering_guide request1) w1' o1 w1'' ->
  handles (GET_clustering_guide request2) w2' o2 w2'' ->
  o1 = o2
  /\ o1 = Returned (jsonify (get_clustering_guide (language_of request1)))
  /\ w1'' = w1' /\ w2'' = w2'.
Proof.
  intros _ _ Hkey H1 H2.
  apply handles_guide in H1. apply handles_guide in H2.
  destruct H1 as [-> ->]. destruct H2 as [-> ->].
  rewrite Hkey. auto.
Qed.

(** ** The clustering step *)

Lemma clusterer_of_recognized (method : string) :
  In method recognized -> exists C, clusterer_of method = Some C.
Proof.
  simpl. intros [<-|[<-|[<-|[<-|[<-|[]]]]]]; eexists; reflexivity.
Qed.

Lemma clusterer_of_unrecognized (method : string) :
  ~ In method recognized -> clusterer_of method = None.
Proof.
  intros Hnot. unfold clusterer_of.
  repeat match goal with
         | |- context [String.eqb method ?k] =>
             destruct (String.eqb_spec method k) as [E|_];
             [exfalso; apply Hnot; rewrite E; simpl; tauto|]
         end.
  reflexivity.
Qed.

(** None of the five classes binds [__init__]: calling one with arguments
    raises. *)
Lemma type_call_clusterer (method : string) (C : pyclass) (a : value)
    (rest : list value) (kwargs : list (string * value)) :
  clusterer_of method = Some C ->
  type_call C (a :: rest) kwargs = raise TypeError (cls_name C ++ "() takes no arguments").
Proof.
  unfold clusterer_of.
  repeat (destruct (String.eqb method _);
          [intros [= <-]; destruct kwargs; reflexivity|]).
  discriminate.
Qed.

(** Every way [perform_clustering] ends: it never returns a table. *)
Lemma perform_clustering_cases (data : DataFrame) (method : string)
    (n_clusters : Z) (eps : pyfloat) (min_samples : Z) (threshold : pyfloat) :
  perform_clustering data method n_clusters eps min_samples threshold =
    match assoc "Name" data with
    | None => Raise (Exception KeyError "'Name'")
    | Some _ =>
        match clusterer_of method with
        | Some C => raise TypeError (cls_name C ++ "() takes no arguments")
        | None => raise ValueError invalid_method_message
        end
    end.
Proof.
  unfold perform_clustering, getitem, drop.
  destruct (assoc "Name" data) as [names|]; [|reflexivity].
  cbn [bind]. unfold clusterer_of.
  repeat (destruct (String.eqb method _); [reflexivity|]).
  reflexivity.
Qed.

(** ** The cluster view *)

Lemma cluster_data_no_file (request : Request) (w : world) :
  assoc "file" (files request) = None ->
  cluster_data request w = Ret (no_file_response, w).
Proof. intros H. unfold cluster_data. now rewrite H. Qed.

(** With a file, the view either raises while it reads the numeric fields
    or the file, or gets to its [try] with a table. *)
Lemma cluster_data_file (request : Request) (w : world) (f : file) :
  assoc "file" (files request) = Some f ->
  (exists e, cluster_data request w = Raise e
             /\ forall data n_clusters eps min_samples threshold,
                  ~ reaches_clustering request data n_clusters eps min_samples threshold)
  \/ (exists data n_clusters eps min_samples threshold,
        reaches_clustering request data n_clusters eps min_samples threshold
        /\ cluster_data request w =
             (r <- attempt (perform_clustering data (method_of request)
                              n_clusters eps min_samples threshold) ;;
              respond r w)).
Proof.
  intros Hf. unfold cluster_data, reaches_clustering. rewrite Hf.
  destruct (int_settled (form_get request "n_clusters" 3)) as [[n ->]|[e ->]];
    [|left; exists e; split; [reflexivity|intros ? ? ? ? ? (_ & H & _); discriminate H]].
  destruct (float_settled (form_get request "eps" (Finite 5 (-1))))
    as [[x ->]|[e ->]];
    [|left; exists e; split; [reflexivity|intros ? ? ? ? ? (_ & _ & H & _); discriminate H]].
  destruct (int_settled (form_get request "min_samples" 5)) as [[m ->]|[e ->]];
    [|left; exists e; split; [reflexivity|intros ? ? ? ? ? (_ & _ & _ & H & _); discriminate H]].
  destruct (float_settled (form_get request "threshold" (Finite 15 (-1))))
    as [[t ->]|[e ->]];
    [|left; exists e; split; [reflexivity|intros ? ? ? ? ? (_ & _ & _ & _ & H); discriminate H]].
  destruct f as [data|err].
  - right. exists data, n, x, m, t. repeat split; reflexivity.
  - left. exists err. split; [reflexivity|].
    intros ? ? ? ? ? (H & _). discriminate H.
Qed.

(** What the view does once it is at its [try]. *)
Lemma cluster_data_at_try (request : Request) (w : world) (data : DataFrame)
    (n_clusters : Z) (eps : pyfloat) (min_samples : Z) (threshold : pyfloat) :
  reaches_clustering request data n_clusters eps min_samples threshold ->
  cluster_data request w =
    match assoc "Name" data with
    | None => Raise (Exception KeyError "'Name'")
    | Some _ =>
        match clusterer_of (method_of request) with
        | Some C => raise TypeError (cls_name C ++ "() takes no arguments")
        | None => Ret (invalid_method_response, w)
        end
    end.
Proof.
  intros (Hf & Hn & He & Hm & Ht). unfold cluster_data.
  rewrite Hf, Hn, He, Hm, Ht. cbn [bind read_excel].
  fold (method_of request). rewrite perform_clustering_cases.
  destruct (assoc "Name" data); [|reflexivity].
  destruct (clusterer_of (method_of request)); reflexivity.
Qed.

(** Where the root path is the working directory, the file sent is the
    file just written. *)
Lemma send_file_after_to_excel (df : DataFrame) (name : string) (w : world) :
  root_path w = None ->
  send_file name (to_excel df name w) =
    Ret {| payload_of := Attachment name (Spreadsheet df); status_code := 200 |}.
Proof.
  intros Hroot. unfold send_file, from_root, to_excel. simpl. rewrite Hroot.
  now rewrite lookup_insert_eq.
Qed.

Lemma respond_table (result_df : DataFrame) (w : world) :
  root_path w = None ->
  respond (inr result_df) w =
    Ret ({| payload_of := Attachment output_file (Spreadsheet result_df);
            status_code := 200 |},
         to_excel result_df output_file w).
Proof. intros Hroot. unfold respond. now rewrite send_file_after_to_excel. Qed.

(** [send_file] answers with status 200 or raises. *)
Lemma send_file_cases (name : string) (w : world) :
  (exists content,
     send_file name w =
       Ret {| payload_of := Attachment name content; status_code := 200 |})
  \/ (exists e, send_file name w = Raise e).
Proof. unfold send_file, raise. destruct (disk w !! _); eauto. Qed.

(** A response of the [try] statement with status 400 comes without a
    write, and any other comes with the one write of the result. *)
Lemma respond_returns (r : exn + DataFrame) (w w' : world) (response : Response) :
  yields (respond r w) (inr (response, w')) ->
  (status_code response = 400 /\ w' = w)
  \/ (exists result_df,
        r = inr result_df /\ status_code response = 200
        /\ w' = to_excel result_df output_file w).
Proof.
  destruct r as [e|result_df].
  - unfold respond. destruct (is_ValueError (exc_type e)); intros H;
      apply yields_inv in H; simpl in H; [|discriminate H].
    injection H as -> ->. left. split; reflexivity.
  - unfold respond.
    destruct (send_file_cases output_file (to_excel result_df output_file w))
      as [[content ->]|[e ->]]; intros H; apply yields_inv in H; simpl in H;
      [|discriminate H].
    injection H as -> ->. right. exists result_df. repeat split; reflexivity.
Qed.

(** Every response of the cluster view is the one for a missing file or
    comes from the [try] statement. *)
Lemma cluster_data_returns (request : Request) (w w' : world) (response : Response) :
  yields (cluster_data request w) (inr (response, w')) ->
  (assoc "file" (files request) = None /\ response = no_file_response /\ w' = w)
  \/ (exists r, yields (respond r w) (inr (response, w'))).
Proof.
  intros H. destruct (assoc "file" (files request)) as [f|] eqn:Hf.
  - right. destruct (cluster_data_file request w f Hf)
      as [(e & E & _)|(data & n & x & m & t & _ & E)].
    + rewrite E in H. apply yields_inv in H. discriminate H.
    + rewrite E in H. apply yields_bind in H.
      destruct H as [(r & _ & Hr)|(e & _ & He)]; [eauto | discriminate He].
  - left. rewrite (cluster_data_no_file _ _ Hf) in H.
    apply yields_inv in H. simpl in H. injection H as -> ->. auto.
Qed.

Lemma handles_cluster_Raise (request : Request) (w w' : world) (e : exn) (o : outcome) :
  cluster_data request w = Raise e ->
  handles (POST_cluster request) w o w' -> o = Unhandled e /\ w' = w.
Proof.
  intros E H. inversion H as [h w0 w1 response Hy|h w0 e' Hy]; subst;
    simpl in Hy; rewrite E in Hy; apply yields_inv in Hy; simpl in Hy.
  - discriminate Hy.
  - injection Hy as ->. auto.
Qed.

Lemma handles_cluster_Ret (request : Request) (w w' w1 : world)
    (response : Response) (o : outcome) :
  cluster_data request w = Ret (response, w1) ->
  handles (POST_cluster request) w o w' -> o = Returned response /\ w' = w1.
Proof.
  intros E H. inversion H as [h w0 w2 response' Hy|h w0 e' Hy]; subst;
    simpl in Hy; rewrite E in Hy; apply yields_inv in Hy; simpl in Hy.
  - injection Hy as -> ->. auto.
  - discriminate Hy.
Qed.

Lemma invalid_method_message_lists_methods : lists_methods invalid_method_message.
Proof. unfold lists_methods, recognized. repeat constructor. Qed.

(** ** The claims about clustering requests *)

(** C1: what the code does where the claim promises a table.  For a table
    with a 'Name' column and each of the five recognized methods,
    [perform_clustering] calls the clusterer class with arguments; the class
    body binds [init], not [__init__], so the call raises TypeError and no
    output table is returned. *)
Theorem perform_clustering_recognized_raises (data : DataFrame) (names : list cell)
    (method : string) (n_clusters : Z) (eps : pyfloat) (min_samples : Z)
    (threshold : pyfloat) :
  assoc "Name" data = Some names ->
  In method recognized ->
  exists C,
    clusterer_of method = Some C
    /\ perform_clustering data method n_clusters eps min_samples threshold =
         raise TypeError (cls_name C ++ "() takes no arguments")
    /\ forall output_data,
         ~ yields (perform_clustering data method n_clusters eps min_samples threshold)
             (inr output_data).
Proof.
  intros Hname Hm. destruct (clusterer_of_recognized method Hm) as [C HC].
  exists C. rewrite perform_clustering_cases, Hname, HC.
  repeat split. intros output_data H. apply yields_inv in H. discriminate H.
Qed.

Lemma perform_clustering_recognized_raises_kmeans :
  exists C,
    clusterer_of "kmeans" = Some C
    /\ perform_clustering two_blobs "kmeans" 2 (Finite 5 (-1)) 5 (Finite 15 (-1)) =
         raise TypeError (cls_name C ++ "() takes no arguments")
    /\ forall output_data,
         ~ yields (perform_clustering two_blobs "kmeans" 2 (Finite 5 (-1)) 5 (Finite 15 (-1)))
             (inr output_data).
Proof.
  apply (perform_clustering_recognized_raises two_blobs
           [CText "a"; CText "b"; CText "c"; CText "d"]).
  - reflexivity.
  - simpl. tauto.
Defined.

(** C6: what the code does on two well-separated groups with kmeans and
    the right cluster count.  The request ends in the TypeError of
    [KMeansClusterer(...)], an unhandled error: no labelling is returned. *)
Theorem kmeans_two_blobs_raises (w : world) :
  cluster_data kmeans_two_blobs_request w =
    raise TypeError "KMeansClusterer() takes no arguments"
  /\ forall o w',
       handles (POST_cluster kmeans_two_blobs_request) w o w' ->
       o = Unhandled (Exception TypeError "KMeansClusterer() takes no arguments")
       /\ w' = w.
Proof.
  assert (E : cluster_data kmeans_two_blobs_request w =
                raise TypeError "KMeansClusterer() takes no arguments")
    by reflexivity.
  split; [exact E|]. intros o w'. now apply handles_cluster_Raise.
Qed.

(** C2, as the code has it: a request with a readable spreadsheet that has
    a 'Name' column, numeric fields that [int] and [float] accept, and a
    method that is none of the five gets status 400 and the error message
    of [perform_clustering], which names the five methods; nothing is
    written. *)
Theorem unrecognized_method_gets_400 (request : Request) (w : world)
    (data : DataFrame) (names : list cell) (n_clusters : Z) (eps : pyfloat)
    (min_samples : Z) (threshold : pyfloat) :
  reaches_clustering request data n_clusters eps min_samples threshold ->
  assoc "Name" data = Some names ->
  ~ In (method_of request) recognized ->
  cluster_data request w = Ret (invalid_method_response, w)
  /\ status_code invalid_method_response = 400
  /\ payload_of invalid_method_response = Json {[ "error" := invalid_method_message ]}
  /\ lists_methods invalid_method_message.
Proof.
  intros Hreach Hname Hm.
  rewrite (cluster_data_at_try _ w _ _ _ _ _ Hreach), Hname,
    (clusterer_of_unrecognized _ Hm).
  repeat split. apply invalid_method_message_lists_methods.
Qed.

Lemma not_recognized_invalid : ~ In "invalid" recognized.
Proof. simpl. intros [H|[H|[H|[H|[H|[]]]]]]; discriminate H. Qed.

Lemma unrecognized_method_gets_400_invalid :
  cluster_data (upload (Spreadsheet two_blobs) [("method", "invalid")]) start =
    Ret (invalid_method_response, start)
  /\ status_code invalid_method_response = 400
  /\ payload_of invalid_method_response = Json {[ "error" := invalid_method_message ]}
  /\ lists_methods invalid_method_message.
Proof.
  apply (unrecognized_method_gets_400 _ start two_blobs
           [CText "a"; CText "b"; CText "c"; CText "d"]
           3 (Finite 5 (-1)) 5 (Finite 15 (-1))).
  - repeat split.
  - reflexivity.
  - exact not_recognized_invalid.
Defined.

Lemma singleton_error_inj (a b : string) :
  Json {[ "error" := a ]} = Json {[ "error" := b ]} -> a = b.
Proof.
  intros H.
  apply (f_equal (fun p => match p with
                           | Json d => d !! "error"
                           | Attachment _ _ => None
                           end)) in H.
  rewrite !lookup_singleton_eq in H. now injection H.
Qed.

Lemma not_rejected_when_raising (request : Request) (w : world) (e : exn) :
  cluster_data request w = Raise e -> ~ rejected_with_method_list request w.
Proof.
  intros E (response & w' & msg & H & _).
  destruct (handles_cluster_Raise _ _ _ _ _ E H) as [H0 _]. discriminate H0.
Qed.

(** C2 as stated fails for the method "invalid" on four requests: without
    a file the message is "No file uploaded", which names no method; with a
    table that has no 'Name' column, with a file that is no spreadsheet,
    and with a cluster count that is no number, the request ends in an
    unhandled error. *)
Lemma unrecognized_method_not_always_rejected :
  ~ In "invalid" recognized
  /\ ~ rejected_with_method_list (no_upload [("method", "invalid")]) start
  /\ ~ rejected_with_method_list
         (upload (Spreadsheet no_names) [("method", "invalid")]) start
  /\ ~ rejected_with_method_list
         (upload not_a_spreadsheet [("method", "invalid")]) start
  /\ ~ rejected_with_method_list
         (upload (Spreadsheet two_blobs)
            [("method", "invalid"); ("n_clusters", "three")]) start.
Proof.
  split; [exact not_recognized_invalid|]. split; [|repeat split].
  - intros (response & w' & msg & H & _ & Hbody & Hlist).
    assert (E : cluster_data (no_upload [("method", "invalid")]) start =
                  Ret (no_file_response, start)) by reflexivity.
    destruct (handles_cluster_Ret _ _ _ _ _ _ E H) as [[= ->] _].
    apply singleton_error_inj in Hbody. subst msg.
    inversion Hlist as [|m l Hk _]. vm_compute in Hk. discriminate Hk.
  - apply (not_rejected_when_raising _ _ (Exception KeyError "'Name'")). reflexivity.
  - apply (not_rejected_when_raising _ _
             (Exception ValueError
                "Excel file format cannot be determined, you must specify an engine manually.")).
    reflexivity.
  - apply (not_rejected_when_raising _ _
             (Exception ValueError "invalid literal for int() with base 10: 'three'")).
    reflexivity.
Qed.

Lemma clusterer_of_None (method : string) :
  clusterer_of method = None -> ~ In method recognized.
Proof.
  intros HN Hm. destruct (clusterer_of_recognized method Hm) as [C HC].
  rewrite HC in HN. discriminate HN.
Qed.

(** C3, as the code has it: the response has status 400 exactly when no
    file was uploaded, or when the request has a readable spreadsheet with
    a 'Name' column, numeric fields that [int] and [float] accept, and a
    method that is none of the five. *)
Theorem status_400_iff (request : Request) (w : world) :
  status_400 request w <->
  (assoc "file" (files request) = None
   \/ exists data names n_clusters eps min_samples threshold,
        reaches_clustering request data n_clusters eps min_samples threshold
        /\ assoc "Name" data = Some names
        /\ ~ In (method_of request) recognized).
Proof.
  split.
  - intros (response & w' & H & _).
    destruct (assoc "file" (files request)) as [f|] eqn:Hf; [right|left; reflexivity].
    destruct (cluster_data_file request w f Hf)
      as [(e & E & _)|(data & n & x & m & t & Hreach & _)].
    + destruct (handles_cluster_Raise _ _ _ _ _ E H) as [H0 _]. discriminate H0.
    + pose proof (cluster_data_at_try request w _ _ _ _ _ Hreach) as E.
      destruct (assoc "Name" data) as [names|] eqn:Hname.
      * destruct (clusterer_of (method_of request)) as [C|] eqn:HC.
        -- destruct (handles_cluster_Raise _ _ _ _ _ E H) as [H0 _]. discriminate H0.
        -- exists data, names, n, x, m, t. auto using clusterer_of_None.
      * destruct (handles_cluster_Raise _ _ _ _ _ E H) as [H0 _]. discriminate H0.
  - intros [Hf|(data & names & n & x & m & t & Hreach & Hname & Hm)].
    + exists no_file_response, w. split; [|reflexivity].
      apply handles_Returned. simpl. rewrite (cluster_data_no_file _ _ Hf). constructor.
    + exists invalid_method_response, w. split; [|reflexivity].
      apply handles_Returned. simpl.
      rewrite (cluster_data_at_try _ w _ _ _ _ _ Hreach), Hname,
        (clusterer_of_unrecognized _ Hm).
      constructor.
Qed.

(** C3 as stated fails in both directions: a request without a file gets
    status 400 although its method, "kmeans", is recognized; a request for
    the method "invalid" on a table without a 'Name' column gets no 400. *)
Lemma status_400_not_iff_unrecognized :
  (status_400 (no_upload [("method", "kmeans")]) start
   /\ In (method_of (no_upload [("method", "kmeans")])) recognized)
  /\ (~ status_400 (upload (Spreadsheet no_names) [("method", "invalid")]) start
      /\ ~ In (method_of (upload (Spreadsheet no_names) [("method", "invalid")]))
             recognized).
Proof.
  repeat split.
  - exists no_file_response, start. split; [|reflexivity].
    apply handles_Returned. constructor.
  - simpl. tauto.
  - intros (response & w' & H & _).
    assert (E : cluster_data (upload (Spreadsheet no_names) [("method", "invalid")]) start
                = Raise (Exception KeyError "'Name'")) by reflexivity.
    destruct (handles_cluster_Raise _ _ _ _ _ E H) as [H0 _]. discriminate H0.
  - exact not_recognized_invalid.
Qed.





(** C9: a response with status 400, for a missing file or for an
    unrecognized method, comes with the disk and the list of writes as they
    were before the request. *)
Theorem error_response_writes_nothing (request : Request) (w w' : world)
    (response : Response) :
  handles (POST_cluster request) w (Returned response) w' ->
  status_code response = 400 ->
  w' = w.
Proof.
  intros H H400. inversion H as [h w0 w1 response' Hy|]; subst. simpl in Hy.
  apply cluster_data_returns in Hy. destruct Hy as [(_ & _ & ->)|[r Hr]]; [reflexivity|].
  apply respond_returns in Hr.
  destruct Hr as [[_ ->]|(result_df & _ & H200 & _)]; [reflexivity|].
  rewrite H200 in H400. discriminate H400.
Qed.

Lemma error_response_writes_nothing_no_file :
  handles (POST_cluster (no_upload [("method", "kmeans")])) after_one_result
    (Returned no_file_response) after_one_result
  /\ status_code no_file_response = 400
  /\ after_one_result = after_one_result.
Proof.
  assert (H : handles (POST_cluster (no_upload [("method", "kmeans")])) after_one_result
                (Returned no_file_response) after_one_result)
    by (apply handles_Returned; constructor).
  split; [exact H|]. split; [reflexivity|].
  exact (error_response_writes_nothing _ _ _ _ H eq_refl).
Defined.

(** A response that is not an error response comes with the one write of
    the table [perform_clustering] returned, whatever that function does. *)
Lemma cluster_data_success_writes_once (request : Request) (w w' : world)
    (response : Response) :
  handles (POST_cluster request) w (Returned response) w' ->
  status_code response <> 400 ->
  exists result_df,
    status_code response = 200 /\ w' = to_excel result_df output_file w.
Proof.
  intros H Hnot. inversion H as [h w0 w1 response' Hy|]; subst. simpl in Hy.
  apply cluster_data_returns in Hy.
  destruct Hy as [(_ & -> & _)|[r Hr]]; [exfalso; apply Hnot; reflexivity|].
  apply respond_returns in Hr.
  destruct Hr as [[H400 _]|(df & _ & H200 & ->)]; [contradiction|].
  exists df. split; [exact H200 | reflexivity].
Qed.

Lemma length_append (a b : string) :
  String.length (a ++ b) = (String.length a + String.length b)%nat.
Proof. induction a as [|c a IH]; simpl; [reflexivity | now rewrite IH]. Qed.

(** Where the root path of the application is another directory, the file
    sent after the write is the one of that directory, and without one the
    view raises after it has written. *)
Lemma respond_from_another_root (result_df : DataFrame) (w : world) (dir : string) :
  root_path w = Some dir ->
  disk w !! (dir ++ "/" ++ output_file) = None ->
  exists e, respond (inr result_df) w = Raise e /\ exc_type e = FileNotFoundError.
Proof.
  intros Hroot Hnone. unfold respond, send_file, from_root, to_excel. simpl.
  rewrite Hroot. destruct (decide (output_file = dir ++ "/" ++ output_file)) as [E|E].
  - exfalso. apply (f_equal String.length) in E.
    rewrite !length_append in E. simpl in E. lia.
  - rewrite lookup_insert_ne by exact E. rewrite Hnone. eexists. split; reflexivity.
Qed.

(** A cluster count of zero with kmeans: the clusterer call raises before
    any library sees the count. *)
Example zero_clusters_is_unhandled :
  cluster_data
    (upload (Spreadsheet two_blobs) [("method", "kmeans"); ("n_clusters", "0")])
    start
  = raise TypeError "KMeansClusterer() takes no arguments".
Proof. reflexivity. Qed.




Lemma guide_independent_of_history_Farsi :
  Returned (jsonify farsi_guide) = Returned (jsonify farsi_guide)
  /\ Returned (jsonify farsi_guide) =
       Returned (jsonify (get_clustering_guide (language_of (guide_query "Farsi"))))
  /\ start = start /\ after_one_result = after_one_result.
Proof.
  assert (E : get_clustering_guide "Farsi" = farsi_guide).
  { rewrite get_clustering_guide_cases. reflexivity. }
  apply (guide_independent_of_history
           [POST_cluster (upload (Spreadsheet two_blobs) [("method", "invalid")]);
            GET_clustering_guide (guide_query "arabic")]
           []
           start start start after_one_result after_one_result after_one_result
           (guide_query "Farsi")
           {| files := []; form := [("method", "kmeans")];
              args := [("language", "Farsi"); ("language", "french")] |}).
  - apply (serves_cons _ _ start start start (Returned invalid_method_response)).
    + apply handles_Returned. constructor.
    + apply (serves_cons _ _ start start start
               (Returned (jsonify (get_clustering_guide "arabic")))).
      * apply handles_Returned. simpl. rewrite clustering_guide_answer. constructor.
      * constructor.
  - constructor.
  - reflexivity.
  - rewrite <- E. exact (handles_guide_exists (guide_query "Farsi") start).
  - rewrite <- E.
    exact (handles_guide_exists
             {| files := []; form := [("method", "kmeans")];
                args := [("language", "Farsi"); ("language", "french")] |}
             after_one_result).
Defined.

(** * Further properties of the code *)

(** ** What a cluster request can end in *)

Lemma cluster_data_outcomes (request : Request) (w : world) :
  cluster_data request w = Ret (no_file_response, w)
  \/ cluster_data request w = Ret (invalid_method_response, w)
  \/ exists e, cluster_data request w = Raise e.
Proof.
  destruct (assoc "file" (files request)) as [f|] eqn:Hf.
  - destruct (cluster_data_file request w f Hf)
      as [(e & E & _)|(data & n & x & m & t & Hreach & _)]; [eauto|].
    rewrite (cluster_data_at_try request w _ _ _ _ _ Hreach).
    destruct (assoc "Name" data); [|eauto].
    destruct (clusterer_of (method_of request)); unfold raise; eauto.
  - left. now apply cluster_data_no_file.
Qed.

(** X1: a cluster request ends in one of three ways, and in none of them
    is a routine of scikit-learn or SciPy called: the response for a
    missing file, the response for an unrecognized method, both with the
    disk as it was, or an exception that leaves the view. *)
Theorem cluster_data_three_ways (request : Request) (w : world) :
  settled (cluster_data request w)
  /\ (cluster_data request w = Ret (no_file_response, w)
      \/ cluster_data request w = Ret (invalid_method_response, w)
      \/ exists e, cluster_data request w = Raise e).
Proof.
  pose proof (cluster_data_outcomes request w) as H. split; [|exact H].
  unfold settled. destruct H as [->|[->|[e ->]]]; eauto.
Qed.



(** ** The guide and its endpoint *)

Lemma guide_keys (d : gmap string string) :
  In d [english_guide; farsi_guide; arabic_guide; french_guide] ->
  dom d = list_to_set recognized.
Proof.
  simpl. intros [<-|[<-|[<-|[<-|[]]]]];
    apply (bool_decide_unpack _); vm_compute; exact I.
Qed.

Lemma get_clustering_guide_in (language : string) :
  In (get_clustering_guide language)
    [english_guide; farsi_guide; arabic_guide; french_guide].
Proof.
  rewrite get_clustering_guide_cases. cbv zeta. simpl.
  repeat (destruct (String.eqb _ _); [tauto|]). tauto.
Qed.

(** X3: whatever the language key, the guide has a sentence for each of the
    five method names [perform_clustering] knows, and for nothing else. *)
Theorem guide_covers_recognized_methods (language method : string) :
  dom (get_clustering_guide language) = list_to_set recognized
  /\ (is_Some (get_clustering_guide language !! method) <-> In method recognized).
Proof.
  pose proof (guide_keys _ (get_clustering_guide_in language)) as H.
  split; [exact H|].
  rewrite <- elem_of_dom, H, elem_of_list_to_set. apply list_elem_of_In.
Qed.

(** X4: the guide endpoint never fails and never writes: every request,
    with or without a language, known or not, gets status 200 and a JSON
    object with the five method names as keys; without a language in the
    query it is the English guide. *)
Theorem clustering_guide_always_answers (request : Request) (w : world) :
  exists d,
    clustering_guide request w = Ret ({| payload_of := Json d; status_code := 200 |}, w)
    /\ dom d = list_to_set recognized
    /\ (assoc "language" (args request) = None -> d = english_guide).
Proof.
  exists (get_clustering_guide (language_of request)).
  split; [apply clustering_guide_answer|]. split.
  - apply guide_keys, get_clustering_guide_in.
  - intros Hnone. unfold language_of, args_get. rewrite Hnone.
    rewrite get_clustering_guide_cases. reflexivity.
Qed.

(** ** The clustering step and what precedes it *)

(** X5: on a table without a 'Name' column [perform_clustering] raises
    KeyError for every method, recognized or not: the column is read before
    the method is looked at, so an unrecognized method is not reported. *)
Theorem perform_clustering_missing_Name (data : DataFrame) (method : string)
    (n_clusters : Z) (eps : pyfloat) (min_samples : Z) (threshold : pyfloat) :
  assoc "Name" data = None ->
  perform_clustering data method n_clusters eps min_samples threshold =
    Raise (Exception KeyError "'Name'").
Proof. intros H. now rewrite perform_clustering_cases, H. Qed.

Lemma perform_clustering_missing_Name_invalid :
  perform_clustering no_names "invalid" 3 (Finite 5 (-1)) 5 (Finite 15 (-1)) =
    Raise (Exception KeyError "'Name'").
Proof. apply (perform_clustering_missing_Name no_names). reflexivity. Defined.

(** X6: the outcome of [perform_clustering] depends on the method name and
    on nothing else: two tables that both have a 'Name' column, with any
    features, and any two sets of numeric parameters give the same outcome. *)
Theorem perform_clustering_reads_only_the_method
    (data data' : DataFrame) (names names' : list cell) (method : string)
    (n_clusters n_clusters' : Z) (eps eps' : pyfloat)
    (min_samples min_samples' : Z) (threshold threshold' : pyfloat) :
  assoc "Name" data = Some names ->
  assoc "Name" data' = Some names' ->
  perform_clustering data method n_clusters eps min_samples threshold =
  perform_clustering data' method n_clusters' eps' min_samples' threshold'.
Proof.
  intros H H'. now rewrite !perform_clustering_cases, H, H'.
Qed.

Lemma perform_clustering_reads_only_the_method_dbscan :
  perform_clustering two_blobs "dbscan" 3 (Finite 5 (-1)) 5 (Finite 15 (-1)) =
  perform_clustering [("Name", [CText "z"])] "dbscan" 0 NaN (-7) (Infinity true).
Proof.
  apply (perform_clustering_reads_only_the_method two_blobs [("Name", [CText "z"])]
           [CText "a"; CText "b"; CText "c"; CText "d"] [CText "z"]);
    reflexivity.
Defined.

Lemma int_raises_ValueError (v : got Z) (e : exn) :
  int v = Raise e -> exc_type e = ValueError.
Proof.
  unfold int, int_of_str, invalid_literal, too_many_digits, raise.
  destruct v as [s|z]; [|discriminate].
  destruct (Text.sign _) as [neg l].
  destruct (Text.digitpart l) as [[[z nd] [|c rest]]|].
  - destruct (Nat.leb nd _); first [discriminate | now intros [= <-]].
  - destruct (_ || _)%bool; now intros [= <-].
  - now intros [= <-].
Qed.



(** X8: a cluster count that [int] rejects ends the request in that
    ValueError, whatever the file and the method: the count is read before
    the file and outside the [try], so there is no 400 and the file is not
    opened. *)
Theorem rejected_cluster_count_is_unhandled (request : Request) (w : world)
    (f : file) (e : exn) :
  assoc "file" (files request) = Some f ->
  int (form_get request "n_clusters" 3) = Raise e ->
  exc_type e = ValueError
  /\ cluster_data request w = Raise e
  /\ forall o w', handles (POST_cluster request) w o w' -> o = Unhandled e /\ w' = w.
Proof.
  intros Hf Hn.
  assert (E : cluster_data request w = Raise e).
  { unfold cluster_data. rewrite Hf, Hn. reflexivity. }
  split; [exact (int_raises_ValueError _ _ Hn)|]. split; [exact E|].
  intros o w'. now apply handles_cluster_Raise.
Qed.

Lemma rejected_cluster_count_is_unhandled_three :
  exc_type (Exception ValueError "invalid literal for int() with base 10: 'three'")
  = ValueError
  /\ cluster_data (upload not_a_spreadsheet [("n_clusters", "three")]) start =
       Raise (Exception ValueError "invalid literal for int() with base 10: 'three'")
  /\ forall o w',
       handles (POST_cluster (upload not_a_spreadsheet [("n_clusters", "three")]))
         start o w' ->
       o = Unhandled (Exception ValueError "invalid literal for int() with base 10: 'three'")
       /\ w' = start.
Proof.
  apply (rejected_cluster_count_is_unhandled _ start not_a_spreadsheet); reflexivity.
Defined.

(** ** The clusterer classes *)

Ltac single_call :=
  unfold init_then_fit_predict; eexists; split; [reflexivity|];
  split; [intros e; reflexivity|];
  intros labels; eexists; split; reflexivity.

Lemma type_call_without___init__ (C : pyclass) (args : list value)
    (kwargs : list (string * value)) :
  assoc "__init__" (cls_body C) = None ->
  (exists c, type_call C args kwargs = Ret c) <-> args = [] /\ kwargs = [].
Proof.
  intros HN. unfold type_call. rewrite HN. split.
  - intros [c H]. destruct args, kwargs; first [split; reflexivity | discriminate H].
  - intros [-> ->]. eexists. reflexivity.
Qed.

(** X9: each of the five classes can be called without arguments only,
    and [fit_predict] on the instance so built raises AttributeError for the
    first attribute it reads that [init] would have set, without a call of
    [fit_predict], [linkage] or [fcluster] of the libraries.  (The estimator
    of a class is an object that holds its parameters; [MeanShiftClusterer]
    builds its own, which takes none, before it reads [data].) *)
Theorem clusterers_need_init :
  Forall (fun C => forall args kwargs,
            (exists c, type_call C args kwargs = Ret c) <-> args = [] /\ kwargs = [])
    clusterers
  /\ fit_predict_uninitialized KMeansClusterer =
       raise AttributeError "'KMeansClusterer' object has no attribute 'n_clusters'"
  /\ fit_predict_uninitialized DBSCANClusterer =
       raise AttributeError "'DBSCANClusterer' object has no attribute 'eps'"
  /\ fit_predict_uninitialized HierarchicalClusterer =
       raise AttributeError "'HierarchicalClusterer' object has no attribute 'data'"
  /\ fit_predict_uninitialized MeanShiftClusterer =
       raise AttributeError "'MeanShiftClusterer' object has no attribute 'data'"
  /\ fit_predict_uninitialized AgglomerativeClusterer =
       raise AttributeError "'AgglomerativeClusterer' object has no attribute 'n_clusters'".
Proof.
  split; [|repeat split].
  unfold clusterers.
  repeat (apply Forall_cons_2;
          [intros args kwargs; apply type_call_without___init__; reflexivity|]).
  apply Forall_nil_2.
Qed.

(** X10: [init] with the table and a cluster count, then [fit_predict] of
    [KMeansClusterer], is one call of scikit-learn: [fit_predict] of
    [KMeans] with that count on that table.  Its exception is raised on,
    its labels are returned as they are, and the estimator is kept in
    [model]. *)
Theorem KMeansClusterer_by_hand (X n_clusters : value) :
  exists k,
    init_then_fit_predict KMeansClusterer [X] [("n_clusters", n_clusters)] =
      Call (fit_predict (KMeans n_clusters) X) k
    /\ returns_labels (KMeans n_clusters) k.
Proof. single_call. Qed.

(** X11: the same for [DBSCANClusterer]: the radius and the minimum of
    neighbours given to [init] reach [DBSCAN]; left out, they are 0.5 and 5. *)
Theorem DBSCANClusterer_by_hand (X eps min_samples : value) :
  (exists k,
     init_then_fit_predict DBSCANClusterer [X]
       [("eps", eps); ("min_samples", min_samples)] =
       Call (fit_predict (DBSCAN eps min_samples) X) k
     /\ returns_labels (DBSCAN eps min_samples) k)
  /\ (exists k,
        init_then_fit_predict DBSCANClusterer [X] [] =
          Call (fit_predict (DBSCAN (VFloat (Finite 5 (-1))) (VInt 5)) X) k
        /\ returns_labels (DBSCAN (VFloat (Finite 5 (-1))) (VInt 5)) k).
Proof. split; single_call. Qed.

(** X12: the same for [MeanShiftClusterer], whose estimator takes no
    parameter. *)
Theorem MeanShiftClusterer_by_hand (X : value) :
  exists k,
    init_then_fit_predict MeanShiftClusterer [X] [] = Call (fit_predict MeanShift X) k
    /\ returns_labels MeanShift k.
Proof. single_call. Qed.

(** X13: the same for [AgglomerativeClusterer]; a cluster count left out
    is 2. *)
Theorem AgglomerativeClusterer_by_hand (X n_clusters : value) :
  (exists k,
     init_then_fit_predict AgglomerativeClusterer [X] [("n_clusters", n_clusters)] =
       Call (fit_predict (AgglomerativeClustering n_clusters) X) k
     /\ returns_labels (AgglomerativeClustering n_clusters) k)
  /\ (exists k,
        init_then_fit_predict AgglomerativeClusterer [X] [] =
          Call (fit_predict (AgglomerativeClustering (VInt 2)) X) k
        /\ returns_labels (AgglomerativeClustering (VInt 2)) k).
Proof. split; single_call. Qed.

(** X14: [HierarchicalClusterer] makes two calls of SciPy in a row:
    [linkage] of the table with the method, then [fcluster] of the matrix
    [linkage] gave, with the threshold and the criterion, 'distance' when
    left out.  An exception of [linkage] is raised on without a call of
    [fcluster]; the labels of [fcluster] are returned as they are, and the
    matrix is kept in [linkage_matrix]. *)
Theorem HierarchicalClusterer_by_hand (X method threshold : value) :
  exists k1,
    init_then_fit_predict HierarchicalClusterer [X]
      [("method", method); ("threshold", threshold)] =
      Call (linkage X method) k1
    /\ (forall e, k1 (inl e) = Raise e)
    /\ forall Zm, exists k2,
         k1 (inr Zm) = Call (fcluster (VArray Zm) threshold (VStr "distance")) k2
         /\ (forall e, k2 (inl e) = Raise e)
         /\ forall labels, exists self,
              k2 (inr labels) = Ret (Some labels, self)
              /\ inst_dict self !! "linkage_matrix" = Some (VArray Zm).
Proof.
  unfold init_then_fit_predict. eexists. split; [reflexivity|].
  split; [intros e; reflexivity|].
  intros Zm. eexists. split; [reflexivity|].
  split; [intros e; reflexivity|].
  intros labels. eexists. split; reflexivity.
Qed.

(** ** The fallback of the method *)

(** X15: a request that leaves the method out is handled as one that sends
    'kmeans': adding the field changes nothing in what the view does, and a
    request that gets as far as the clusterer ends in the TypeError of
    [KMeansClusterer], not of another class. *)
Theorem method_fallback_is_kmeans (request : Request) (w : world) :
  assoc "method" (form request) = None ->
  cluster_data (with_field "method" "kmeans" request) w = cluster_data request w
  /\ forall data names n_clusters eps min_samples threshold,
       reaches_clustering request data n_clusters eps min_samples threshold ->
       assoc "Name" data = Some names ->
       cluster_data request w = raise TypeError "KMeansClusterer() takes no arguments".
Proof.
  intros Hnone. split.
  - unfold cluster_data, form_get.
    cbn [with_field files form args assoc String.eqb Ascii.eqb Bool.eqb].
    rewrite Hnone. reflexivity.
  - intros data names n x m t Hreach Hname.
    rewrite (cluster_data_at_try request w _ _ _ _ _ Hreach), Hname.
    unfold method_of, form_get. rewrite Hnone. reflexivity.
Qed.

Lemma method_fallback_is_kmeans_two_blobs :
  cluster_data (with_field "method" "kmeans" (upload (Spreadsheet two_blobs) [])) start
  = cluster_data (upload (Spreadsheet two_blobs) []) start
  /\ forall data names n_clusters eps min_samples threshold,
       reaches_clustering (upload (Spreadsheet two_blobs) []) data
         n_clusters eps min_samples threshold ->
       assoc "Name" data = Some names ->
       cluster_data (upload (Spreadsheet two_blobs) []) start =
         raise TypeError "KMeansClusterer() takes no arguments".
Proof.
  apply (method_fallback_is_kmeans (upload (Spreadsheet two_blobs) []) start).
  reflexivity.
Defined.
